(** * A shallow embedding of the Saleor React Native demo

    The repository consists of two function components:
    [App] (src/App.tsx) and [Products] (src/Products.tsx).  Both are
    embedded here as functions that build an element tree.  The values
    that flow through [Products] come from a GraphQL response that the
    code reads without any type annotation, so they are modelled as
    dynamically typed JavaScript values whose property access can throw.

    Four pieces of library behaviour are needed to say anything about
    what is rendered; each is modelled by its documented contract and is
    marked as such where it is defined:
    - [useQuery] (Apollo Client): registers the query with the client
      found in context and hands back [{ loading, data, error }];
    - [ApolloProvider] (Apollo Client): puts a client in context
      ([provide]);
    - [FlatList] (React Native): calls [keyExtractor] and [renderItem]
      on the items of [data], in order, in rows of [numColumns];
    - mounting (React): an element whose text child is a plain object
      is rejected with an exception ([mount]). *)

From Stdlib Require Import List String Ascii ZArith Lia Bool Arith DecimalString.
Import ListNotations.
Open Scope string_scope.
Open Scope list_scope.

Set Implicit Arguments.
Set Warnings "-register-all".

(** ** JavaScript values *)

Module Js.

(** Numbers are only ever small integer literals in this program
    (sizes, flex factors), so [Z] carries them. *)
Inductive Value : Type :=
| Undefined
| Null
| Bool (b : bool)
| Num (n : Z)
| Str (s : string)
| Arr (items : list Value)
| Obj (fields : list (string * Value)).

Inductive Error : Type :=
| TypeError       (* property read on [undefined] or [null] *)
| InvariantError  (* Apollo: no client in context *)
| ChildError      (* React: a plain object is not valid as a child *)
| OutOfContract.  (* a library prop received a value outside its declared type *)

Inductive Result (A : Type) : Type :=
| Ok (a : A)
| Throw (e : Error).
Arguments Ok {A} a.
Arguments Throw {A} e.

Definition bind {A B} (r : Result A) (k : A -> Result B) : Result B :=
  match r with
  | Ok a => k a
  | Throw e => Throw e
  end.

Fixpoint mapM {A B} (f : A -> Result B) (l : list A) : Result (list B) :=
  match l with
  | [] => Ok []
  | x :: rest =>
      bind (f x) (fun y => bind (mapM f rest) (fun ys => Ok (y :: ys)))
  end.

(** [x != null] in JavaScript: neither [undefined] nor [null]. *)
Definition nullish (v : Value) : bool :=
  match v with
  | Undefined | Null => true
  | _ => false
  end.

Fixpoint lookup (k : string) (fields : list (string * Value)) : Value :=
  match fields with
  | [] => Undefined
  | (k', v) :: rest => if String.eqb k k' then v else lookup k rest
  end.

(** [v.k]: reading a property of [undefined] or [null] throws a
    TypeError; a missing property reads as [undefined].  Arrays and
    strings answer [length]; no other built-in property is read by
    the program. *)
Definition get (v : Value) (k : string) : Result Value :=
  match v with
  | Undefined | Null => Throw TypeError
  | Obj fields => Ok (lookup k fields)
  | Arr items =>
      Ok (if String.eqb k "length" then Num (Z.of_nat (List.length items))
          else Undefined)
  | Str s =>
      Ok (if String.eqb k "length" then Num (Z.of_nat (String.length s))
          else Undefined)
  | Bool _ | Num _ => Ok Undefined
  end.

End Js.

Import Js.

Declare Scope js_scope.
Delimit Scope js_scope with js.
Notation "x <- r ;; k" := (Js.bind r (fun x => k))
  (at level 61, r at next level, right associativity) : js_scope.
(** [r .> k] continues a chain of property reads: [a.b.c] is
    [get a "b" .> "c"]. *)
Notation "r .> k" := (Js.bind r (fun o => Js.get o k))
  (at level 40, left associativity) : js_scope.
Open Scope js_scope.

(** ** GraphQL documents

    The [gql] template of src/Products.tsx, as the syntax tree the tag
    parses it into. *)

Module Gql.

Inductive ArgValue : Type :=
| IntValue (n : Z)
| StringValue (s : string).

Inductive Selection : Type :=
| Field (name : string) (args : list (string * ArgValue))
        (selections : list Selection).

Inductive OperationType : Type := QUERY | MUTATION | SUBSCRIPTION.

Record DocumentNode : Type := {
  operation : OperationType;
  operationName : string;
  variableDefinitions : list string;
  selectionSet : list Selection
}.

(** Every argument written anywhere in a selection, outermost first. *)
Fixpoint arguments_of (s : Selection) : list (string * ArgValue) :=
  match s with
  | Field _ a subs => a ++ flat_map arguments_of subs
  end.

Definition arguments (d : DocumentNode) : list (string * ArgValue) :=
  flat_map arguments_of (selectionSet d).

(** The scalar fields a selection asks for, as dotted paths. *)
Fixpoint leaves_of (s : Selection) : list string :=
  match s with
  | Field n _ [] => [n]
  | Field n _ subs =>
      map (fun p => (n ++ "." ++ p)%string) (flat_map leaves_of subs)
  end.

Definition leaves (d : DocumentNode) : list string :=
  flat_map leaves_of (selectionSet d).

End Gql.

(** ** Apollo client, query results and the render monad *)

Record InMemoryCache : Type := { entries : list (string * Js.Value) }.

(** [new InMemoryCache()] *)
Definition InMemoryCache_new : InMemoryCache := {| entries := [] |}.

Record ApolloClient : Type := {
  uri : string;
  cache : InMemoryCache
}.

(** A query handed to a client: where it goes and what it asks. *)
Record Request : Type := {
  endpoint : string;
  document : Gql.DocumentNode
}.

(** What [useQuery] returns; the program destructures [loading] and
    [data] only. *)
Record QueryResult : Type := {
  loading : bool;
  data : Js.Value;
  error : option string
}.

(** The life cycle of a query as Apollo Client reports it: while the
    request is in flight [loading] is true and there is no data; a
    response sets [data]; a failed request sets [error], clears
    [loading] and leaves [data] undefined. *)
Inductive QueryState : Type :=
| Pending
| Resolved (payload : Js.Value)
| Failed (message : string).

Definition report (st : QueryState) : QueryResult :=
  match st with
  | Pending => {| loading := true; data := Undefined; error := None |}
  | Resolved payload => {| loading := false; data := payload; error := None |}
  | Failed message =>
      {| loading := false; data := Undefined; error := Some message |}
  end.

(** What a render can observe: the client placed in context by the
    nearest provider, and the current answer of the network layer to
    each request. *)
Record Env : Type := {
  context : option ApolloClient;
  answer : Request -> QueryResult
}.

(** A render produces the requests it handed to the client and either
    an element or an exception. *)
Record Outcome (A : Type) : Type := {
  dispatched : list Request;
  result : Js.Result A
}.

Definition Render (A : Type) : Type := Env -> Outcome A.

Definition ret {A} (a : A) : Render A :=
  fun _ => {| dispatched := []; result := Ok a |}.

Definition lift {A} (r : Js.Result A) : Render A :=
  fun _ => {| dispatched := []; result := r |}.

Definition rbind {A B} (m : Render A) (k : A -> Render B) : Render B :=
  fun env =>
    let o := m env in
    match result o with
    | Ok a =>
        let o' := k a env in
        {| dispatched := dispatched o ++ dispatched o'; result := result o' |}
    | Throw e => {| dispatched := dispatched o; result := Throw e |}
    end.

Declare Scope render_scope.
Delimit Scope render_scope with render.
Notation "x <~ m ;; k" := (rbind m (fun x => k))
  (at level 61, m at next level, right associativity) : render_scope.

(** [useQuery(q)]: without a client in context Apollo's invariant
    fails; otherwise the query is handed to that client and its current
    result is returned. *)
Definition useQuery (q : Gql.DocumentNode) : Render QueryResult :=
  fun env =>
    match context env with
    | None => {| dispatched := []; result := Throw InvariantError |}
    | Some c =>
        let rq := {| endpoint := uri c; document := q |} in
        {| dispatched := [rq]; result := Ok (answer env rq) |}
    end.

(** [<ApolloProvider client={c}>]: the subtree is rendered with [c] in
    context. *)
Definition provide {A} (c : ApolloClient) (m : Render A) : Render A :=
  fun env => m {| context := Some c; answer := answer env |}.

(** ** Elements *)

Definition Style : Type := list (string * Js.Value).

Inductive Element : Type :=
| View (style : Style) (children : list Element)
| SafeAreaView (style : Style) (children : list Element)
| Text (style : Style) (child : Js.Value)
| Image (source_uri : Js.Value) (style : Style)
| StatusBar (style : string)
| ApolloProvider (client : ApolloClient) (children : list Element)
| Grid (header : Element) (columns : nat)
       (rows : list (list (Js.Value * Element))).

(** A rendered list item together with the key extracted for it. *)
Definition Cell : Type := (Js.Value * Element)%type.

(** The children of all [Text] nodes, in document order. *)
Fixpoint texts (e : Element) : list Js.Value :=
  match e with
  | View _ cs | SafeAreaView _ cs | ApolloProvider _ cs => flat_map texts cs
  | Text _ c => [c]
  | Image _ _ | StatusBar _ => []
  | Grid h _ rows =>
      texts h ++
      flat_map (fun row => flat_map (fun c => match c with (_, x) => texts x end) row)
               rows
  end.

(** The sources of all [Image] nodes, in document order. *)
Fixpoint images (e : Element) : list Js.Value :=
  match e with
  | View _ cs | SafeAreaView _ cs | ApolloProvider _ cs => flat_map images cs
  | Image u _ => [u]
  | Text _ _ | StatusBar _ => []
  | Grid h _ rows =>
      images h ++
      flat_map (fun row => flat_map (fun c => match c with (_, x) => images x end) row)
               rows
  end.

(** All grids of a tree, each as its column count and its rows. *)
Fixpoint grids (e : Element) : list (nat * list (list Cell)) :=
  match e with
  | View _ cs | SafeAreaView _ cs | ApolloProvider _ cs => flat_map grids cs
  | Text _ _ | Image _ _ | StatusBar _ => []
  | Grid h n rows =>
      grids h ++ [(n, rows)] ++
      flat_map (fun row => flat_map (fun c => match c with (_, x) => grids x end) row)
               rows
  end.

(** All item cells of a tree, row by row. *)
Definition cells (e : Element) : list Cell :=
  flat_map (fun g => List.concat (snd g)) (grids e).

(** ** Mounting (React)

    When React mounts an element, a text child may be a string, a
    number, a boolean, [null], [undefined] or an array of such; a plain
    object is rejected with an exception.  What the native image view
    does with a source that is not a string is not modelled. *)

Fixpoint valid_child (v : Js.Value) : bool :=
  match v with
  | Obj _ => false
  | Arr items => forallb valid_child items
  | _ => true
  end.

Fixpoint mountable (e : Element) : bool :=
  match e with
  | View _ cs | SafeAreaView _ cs | ApolloProvider _ cs => forallb mountable cs
  | Text _ c => valid_child c
  | Image _ _ | StatusBar _ => true
  | Grid h _ rows =>
      mountable h &&
      forallb (fun row => forallb (fun c => match c with (_, x) => mountable x end) row)
              rows
  end.

Definition mount (e : Element) : Js.Result Element :=
  if mountable e then Ok e else Throw ChildError.

(** ** FlatList (React Native)

    The contract of the library component, for the props the program
    sets.  The items are those of [data]: the elements of an array,
    the characters of a string, the indexed fields of an object that
    has a numeric [length]; any other value, [null] and [undefined]
    included, has no items.  With [numColumns] above one the list is
    cut into rows of [numColumns] consecutive items, the last row
    holding what remains; an item that is [null] or [undefined] is
    left out of its row, as the React Native releases of the
    repository's time do.  With one column every item is a row of its
    own; a column count of zero is outside the contract.  For every
    item that is shown the key is taken with [keyExtractor], the cell
    is built with [renderItem] and then mounted; an exception of
    either callback or of mounting aborts the render.  [renderItem] is
    handed [{ item, index, separators }]; the program destructures
    [item] alone, which is what the callback receives here.  Windowing
    is not modelled: all rows are rendered, where the library mounts
    the first ten rows at once and the others as the list is laid out
    and scrolled. *)

Module FlatListProps.
Record t : Type := {
  data : Js.Value;
  ListHeaderComponent : unit -> Element;
  renderItem : Js.Value -> Js.Result Element;
  numColumns : nat;
  keyExtractor : Js.Value -> Js.Result Js.Value
}.
End FlatListProps.

(** [Math.ceil(len / n)] *)
Definition row_count (n len : nat) : nat := (len + n - 1) / n.

(** Row [i] of a list cut into rows of [n]: positions
    [i * n .. i * n + n - 1], as far as they exist. *)
Definition chunk {A} (n : nat) (l : list A) : list (list A) :=
  map (fun i => firstn n (skipn (i * n) l))
      (seq 0 (row_count n (List.length l))).

Definition rows_of (n : nat) (items : list Js.Value) : list (list Js.Value) :=
  map (filter (fun v => negb (nullish v))) (chunk n items).

(** [data[i]] for an object: the field named by the decimal numeral
    of [i]. *)
Definition index_key (i : nat) : string :=
  NilEmpty.string_of_uint (Nat.to_uint i).

Definition items_of (data : Js.Value) : list Js.Value :=
  match data with
  | Arr items => items
  | Str s => map (fun c => Str (String c EmptyString)) (list_ascii_of_string s)
  | Obj fields =>
      match lookup "length" fields with
      | Num n => map (fun i => lookup (index_key i) fields) (seq 0 (Z.to_nat n))
      | _ => []
      end
  | _ => []
  end.

Definition render_cell (p : FlatListProps.t) (item : Js.Value) : Js.Result Cell :=
  k <- FlatListProps.keyExtractor p item ;;
  e <- FlatListProps.renderItem p item ;;
  cell <- mount e ;;
  Ok (k, cell).

Definition FlatList (p : FlatListProps.t) : Js.Result Element :=
  layout <- match FlatListProps.numColumns p with
            | 0 => Throw OutOfContract
            | 1 => Ok (map (fun v => [v]) (items_of (FlatListProps.data p)))
            | n => Ok (rows_of n (items_of (FlatListProps.data p)))
            end ;;
  header <- mount (FlatListProps.ListHeaderComponent p tt) ;;
  rows <- mapM (mapM (render_cell p)) layout ;;
  Ok (Grid header (FlatListProps.numColumns p) rows).

(** ** src/Products.tsx *)

Module ProductsTsx.

Import Gql.

Definition GET_PRODUCTS : DocumentNode := {|
  operation := QUERY;
  operationName := "getProducts";
  variableDefinitions := [];
  selectionSet :=
    [Field "products"
       [("first", IntValue 10); ("channel", StringValue "default-channel")]
       [Field "edges" []
          [Field "node" []
             [Field "id" [] [];
              Field "name" [] [];
              Field "description" [] [];
              Field "thumbnail" [] [Field "url" [] []]]]]]
|}.

Record StyleSheet : Type := {
  container : Style;
  title : Style;
  product : Style
}.

Definition styles : StyleSheet := {|
  container := [("flex", Num 1); ("width", Str "100%")];
  title := [("width", Str "100%"); ("textAlign", Str "center");
            ("fontSize", Num 20); ("padding", Num 20)];
  product := [("flex", Num 1); ("alignItems", Str "center");
              ("justifyContent", Str "center"); ("padding", Num 20)]
|}.

(** [ListHeaderComponent={() => <Text style={styles.title}>Products</Text>}] *)
Definition ListHeaderComponent (_ : unit) : Element :=
  Text (title styles) (Str "Products").

(** [renderItem={({ item }) => ...}] *)
Definition renderItem (item : Js.Value) : Js.Result Element :=
  url <- get item "node" .> "thumbnail" .> "url" ;;
  name <- get item "node" .> "name" ;;
  Ok (View (product styles)
        [Image url [("height", Num 150); ("width", Num 150)];
         Text [("fontSize", Num 16); ("fontWeight", Str "bold")] name;
         Text [] (Str "$4.50")]).

(** [keyExtractor={(item) => item.node.id}] *)
Definition keyExtractor (item : Js.Value) : Js.Result Js.Value :=
  get item "node" .> "id".

(** [export default function Products()]: the function declares no
    parameter, so whatever props it is called with are dropped. *)
Definition Products (props : Js.Value) : Render Element :=
  (q <~ useQuery GET_PRODUCTS ;;
   body <~ lift (if loading q
                 then Ok (Text [] (Str "Loading"))
                 else
                   edges <- get (data q) "products" .> "edges" ;;
                   FlatList {|
                     FlatListProps.data := edges;
                     FlatListProps.ListHeaderComponent := ListHeaderComponent;
                     FlatListProps.renderItem := renderItem;
                     FlatListProps.numColumns := 2;
                     FlatListProps.keyExtractor := keyExtractor
                   |}) ;;
   ret (SafeAreaView (container styles) [body]))%render.

End ProductsTsx.

(** ** src/App.tsx *)

Module AppTsx.

Definition client : ApolloClient := {|
  uri := "https://demo.saleor.io/graphql/";
  cache := InMemoryCache_new
|}.

Record StyleSheet : Type := {
  container : Style;
  header : Style
}.

Definition styles : StyleSheet := {|
  container := [("flex", Num 1); ("alignItems", Str "center");
                ("justifyContent", Str "center")];
  header := [("backgroundColor", Str "blue"); ("width", Str "100%");
             ("height", Num 100)]
|}.

(** [export default function App()].  [<Products />] is rendered with
    the empty props object, inside the provider; an exception below the
    provider is caught by no boundary and takes the whole tree down. *)
Definition App (props : Js.Value) : Render Element :=
  provide client
    (products <~ ProductsTsx.Products (Obj []) ;;
     ret (ApolloProvider client
            [View (container styles)
               [StatusBar "auto";
                View (header styles)
                  [SafeAreaView (container styles)
                     [Text [("color", Str "#fff"); ("fontSize", Num 18)]
                        (Str "React Native Demo Home Page")]];
                products]]))%render.

(** The header region of a rendered [App]: the second child of the
    outer [View]. *)
Definition header_region (e : Element) : option Element :=
  match e with
  | ApolloProvider _ [View _ (_ :: h :: _)] => Some h
  | _ => None
  end.

(** The region below the header, where [Products] is mounted. *)
Definition body_region (e : Element) : option Element :=
  match e with
  | ApolloProvider _ [View _ (_ :: _ :: b :: _)] => Some b
  | _ => None
  end.

End AppTsx.

(** ** The response the query promises

    [GET_PRODUCTS] asks for [products.edges[].node] with [id], [name],
    [description] and [thumbnail.url].  A payload is read as a list of
    product records when it has that shape; fields that were not asked
    for (such as [__typename]) are tolerated.  [description] is
    nullable in the remote schema and is kept as a raw value. *)

Module Schema.

Record Thumbnail : Type := { url : string }.

Record Product : Type := {
  id : string;
  name : string;
  description : Js.Value;
  thumbnail : Thumbnail
}.

Definition node_of (v : Js.Value) : option Product :=
  match get v "id", get v "name", get v "description",
        get v "thumbnail" .> "url" with
  | Ok (Str i), Ok (Str n), Ok d, Ok (Str u) =>
      Some {| id := i; name := n; description := d;
              thumbnail := {| url := u |} |}
  | _, _, _, _ => None
  end.

Definition edge_of (item : Js.Value) : option Product :=
  match get item "node" with
  | Ok n => node_of n
  | Throw _ => None
  end.

Fixpoint traverse {A B} (f : A -> option B) (l : list A) : option (list B) :=
  match l with
  | [] => Some []
  | x :: rest =>
      match f x, traverse f rest with
      | Some y, Some ys => Some (y :: ys)
      | _, _ => None
      end
  end.

Definition products_of (payload : Js.Value) : option (list Product) :=
  match get payload "products" .> "edges" with
  | Ok (Arr es) => traverse edge_of es
  | _ => None
  end.

(** The plain payload carrying a given list of records. *)
Definition node_value (p : Product) : Js.Value :=
  Obj [("id", Str (id p)); ("name", Str (name p));
       ("description", description p);
       ("thumbnail", Obj [("url", Str (url (thumbnail p)))])].

Definition edge_value (p : Product) : Js.Value := Obj [("node", node_value p)].

Definition payload_of (ps : list Product) : Js.Value :=
  Obj [("products", Obj [("edges", Arr (map edge_value ps))])].

(** Two records that agree on everything but [description]. *)
Definition same_but_description (p q : Product) : Prop :=
  id p = id q /\ name p = name q /\ thumbnail p = thumbnail q.

End Schema.

(** The cell the program is expected to show for a record. *)
Definition product_cell (p : Schema.Product) : Cell :=
  (Str (Schema.id p),
   View (ProductsTsx.product ProductsTsx.styles)
     [Image (Str (Schema.url (Schema.thumbnail p)))
        [("height", Num 150); ("width", Num 150)];
      Text [("fontSize", Num 16); ("fontWeight", Str "bold")]
        (Str (Schema.name p));
      Text [] (Str "$4.50")]).

(** The environment below a provider of [c] in which every request
    currently has the result [r]. *)
Definition under (c : ApolloClient) (r : QueryResult) : Env :=
  {| context := Some c; answer := fun _ => r |}.

Unset Implicit Arguments.

(** What [Products] asks of a client, and what it sees in an
    environment: nothing without a provider, otherwise the current
    result of its one request. *)
Definition asked (c : ApolloClient) : Request :=
  {| endpoint := uri c; document := ProductsTsx.GET_PRODUCTS |}.

Definition seen (env : Env) : option QueryResult :=
  match context env with
  | Some c => Some (answer env (asked c))
  | None => None
  end.

(** The environment in which [App] renders its subtree. *)
Definition inside_provider (env : Env) : Env :=
  {| context := Some AppTsx.client; answer := answer env |}.

(** The header of [App] as written in src/App.tsx. *)
Definition header_view : Element :=
  View (AppTsx.header AppTsx.styles)
    [SafeAreaView (AppTsx.container AppTsx.styles)
       [Text [("color", Str "#fff"); ("fontSize", Num 18)]
          (Str "React Native Demo Home Page")]].

(** The props [Products] hands to [FlatList], for a given value of
    [data.products.edges]. *)
Definition list_props (edges : Js.Value) : FlatListProps.t := {|
  FlatListProps.data := edges;
  FlatListProps.ListHeaderComponent := ProductsTsx.ListHeaderComponent;
  FlatListProps.renderItem := ProductsTsx.renderItem;
  FlatListProps.numColumns := 2;
  FlatListProps.keyExtractor := ProductsTsx.keyExtractor
|}.

(** An edge whose node is present and has a thumbnail that is neither
    [null] nor [undefined]. *)
Definition edge_is_safe (item : Js.Value) : bool :=
  match get item "node" .> "thumbnail" with
  | Ok th => negb (nullish th)
  | Throw _ => false
  end.

(** The precondition under which rendering is said to be total:
    [loading] is true, or [data] is present with a [products.edges]
    array whose every node has a non-null thumbnail. *)
Definition stated_precondition (r : QueryResult) : bool :=
  loading r ||
  match get (data r) "products" .> "edges" with
  | Ok (Arr es) => forallb edge_is_safe es
  | _ => false
  end.

(** The two outputs of [Products]: the loading text, and the list
    with given rows of cells. *)
Definition loading_view : Element :=
  SafeAreaView (ProductsTsx.container ProductsTsx.styles)
    [Text [] (Str "Loading")].

Definition grid_view (rows : list (list Cell)) : Element :=
  SafeAreaView (ProductsTsx.container ProductsTsx.styles)
    [Grid (ProductsTsx.ListHeaderComponent tt) 2 rows].

(** * Sample data *)

Definition apple_juice : Schema.Product := {|
  Schema.id := "UHJvZHVjdDo3Mg==";
  Schema.name := "Apple Juice";
  Schema.description := Str "Fell straight from the tree.";
  Schema.thumbnail := {| Schema.url := "https://demo.saleor.io/media/apple.png" |}
|}.

Definition banana_juice : Schema.Product := {|
  Schema.id := "UHJvZHVjdDo3NA==";
  Schema.name := "Banana Juice";
  Schema.description := Null;
  Schema.thumbnail := {| Schema.url := "https://demo.saleor.io/media/banana.png" |}
|}.

Definition carrot_juice : Schema.Product := {|
  Schema.id := "UHJvZHVjdDo3OQ==";
  Schema.name := "Carrot Juice";
  Schema.description := Str "Bunny approved.";
  Schema.thumbnail := {| Schema.url := "https://demo.saleor.io/media/carrot.png" |}
|}.

Definition sample_products : list Schema.Product :=
  [apple_juice; banana_juice; carrot_juice].

Definition sample_result : QueryResult :=
  report (Resolved (Schema.payload_of sample_products)).

Definition sample_env : Env := under AppTsx.client sample_result.

(** The same records under other descriptions. *)
Definition redescribed_products : list Schema.Product :=
  map (fun p => {| Schema.id := Schema.id p;
                   Schema.name := Schema.name p;
                   Schema.description := Str "No description.";
                   Schema.thumbnail := Schema.thumbnail p |})
      sample_products.

Definition redescribed_result : QueryResult :=
  report (Resolved (Schema.payload_of redescribed_products)).

Definition redescribed_env : Env := under AppTsx.client redescribed_result.

Definition pending_env : Env := under AppTsx.client (report Pending).

Definition failed_env : Env :=
  under AppTsx.client (report (Failed "Network request failed")).






(** An object that carries a [length], which [FlatList] would index. *)
Definition array_like_object (v : Js.Value) : bool :=
  match v with
  | Obj fields => negb (nullish (lookup "length" fields))
  | _ => false
  end.

Definition edges_array_like (r : QueryResult) : bool :=
  match get (data r) "products" .> "edges" with
  | Ok edges => array_like_object edges
  | Throw _ => false
  end.

(** A response in which a node has an object where its name should be,
    and one with a [null] entry and a node without a name. *)
Definition object_name_result : QueryResult :=
  report (Resolved
    (Obj [("products",
           Obj [("edges",
                 Arr [Obj [("node",
                            Obj [("id", Str "UHJvZHVjdDo3Mg==");
                                 ("name", Obj [("en", Str "Apple Juice")]);
                                 ("thumbnail",
                                  Obj [("url", Str "https://demo.saleor.io/media/apple.png")])])]])])])).

Definition object_name_env : Env := under AppTsx.client object_name_result.





(** ** Restricting a value to a selection set

    What remains of a value when only the fields a selection set names
    are kept, level by level; arrays are restricted item by item, and
    a field selected without sub-selections is kept whole. *)

Fixpoint find_field (k : string) (sels : list Gql.Selection)
  : option (list Gql.Selection) :=
  match sels with
  | [] => None
  | Gql.Field n _ subs :: rest =>
      if String.eqb k n then Some subs else find_field k rest
  end.

Fixpoint restrict (sels : list Gql.Selection) (v : Js.Value) {struct v}
  : Js.Value :=
  match sels with
  | [] => v
  | _ :: _ =>
      match v with
      | Arr items => Arr (map (restrict sels) items)
      | Obj fields =>
          Obj ((fix keep (fs : list (string * Js.Value)) :=
                  match fs with
                  | [] => []
                  | (k, x) :: rest =>
                      match find_field k sels with
                      | Some subs => (k, restrict subs x) :: keep rest
                      | None => keep rest
                      end
                  end) fields)
      | other => other
      end
  end.

(** The fields of an object that a selection set keeps. *)
Fixpoint keep_fields (sels : list Gql.Selection)
         (fs : list (string * Js.Value)) : list (string * Js.Value) :=
  match fs with
  | [] => []
  | (k, x) :: rest =>
      match find_field k sels with
      | Some subs => (k, restrict subs x) :: keep_fields sels rest
      | None => keep_fields sels rest
      end
  end.

(** The sub-selections of field [k], none if it is not selected. *)
Definition below (k : string) (sels : list Gql.Selection)
  : list Gql.Selection :=
  match find_field k sels with
  | Some subs => subs
  | None => []
  end.

(** What [GET_PRODUCTS] selects of each edge. *)
Definition edge_selection : list Gql.Selection :=
  below "edges" (below "products" (Gql.selectionSet ProductsTsx.GET_PRODUCTS)).

(** A result with its payload cut down to what [GET_PRODUCTS] asks. *)
Definition as_requested (r : QueryResult) : QueryResult :=
  {| loading := loading r;
     data := restrict (Gql.selectionSet ProductsTsx.GET_PRODUCTS) (data r);
     error := error r |}.

(** A response that carries more than was asked, and a node that
    carries less. *)
Definition verbose_result : QueryResult :=
  report (Resolved
    (Obj [("products",
           Obj [("__typename", Str "ProductCountableConnection");
                ("totalCount", Num 2);
                ("edges",
                 Arr [Obj [("cursor", Str "WyJhcHBsZSJd");
                           ("node",
                            Obj [("__typename", Str "Product");
                                 ("id", Str "UHJvZHVjdDo3Mg==");
                                 ("name", Str "Apple Juice");
                                 ("price", Str "$1.99");
                                 ("thumbnail",
                                  Obj [("alt", Str "");
                                       ("url", Str "https://demo.saleor.io/media/apple.png")])])];
                      Obj [("node",
                            Obj [("slug", Str "mystery");
                                 ("thumbnail", Obj [])])]])])])).

Definition verbose_env : Env := under AppTsx.client verbose_result.

(** What [Products] makes of that response: the second cell has no
    key, no image source and no name. *)
Definition verbose_body : Element :=
  grid_view
    [[(Str "UHJvZHVjdDo3Mg==",
       View (ProductsTsx.product ProductsTsx.styles)
         [Image (Str "https://demo.saleor.io/media/apple.png")
            [("height", Num 150); ("width", Num 150)];
          Text [("fontSize", Num 16); ("fontWeight", Str "bold")]
            (Str "Apple Juice");
          Text [] (Str "$4.50")]);
      (Undefined,
       View (ProductsTsx.product ProductsTsx.styles)
         [Image Undefined [("height", Num 150); ("width", Num 150)];
          Text [("fontSize", Num 16); ("fontWeight", Str "bold")] Undefined;
          Text [] (Str "$4.50")])]].

Definition nameless_edge : Js.Value :=
  Obj [("node", Obj [("slug", Str "mystery"); ("thumbnail", Obj [])])].

Definition bare_edge : Js.Value :=
  Obj [("node", Obj [("id", Str "UHJvZHVjdDo5OQ=="); ("name", Str "Gift card")])].

(** * Facts about the list layout *)

Lemma nth_map_seq {B} (g : nat -> B) (m k : nat) (d : B) :
  k < m -> nth k (map g (seq 0 m)) d = g k.
Proof.
  intros Hk.
  rewrite nth_indep with (d' := g 0) by now rewrite length_map, length_seq.
  rewrite map_nth, seq_nth by assumption. reflexivity.
Qed.

Section Chunk.

Variable A : Type.
Variable n : nat.
Hypothesis n_pos : 0 < n.

Lemma row_count_covers (len : nat) : len <= row_count n len * n.
Proof.
  unfold row_count.
  pose proof (Nat.div_mod_eq (len + n - 1) n) as E.
  pose proof (Nat.mod_upper_bound (len + n - 1) n ltac:(lia)) as U.
  nia.
Qed.

Lemma row_count_tight (len i : nat) : i < row_count n len -> i * n < len.
Proof.
  unfold row_count. intros Hi.
  pose proof (Nat.div_mod_eq (len + n - 1) n) as E.
  assert (S i <= (len + n - 1) / n) as Hs by lia.
  nia.
Qed.

Lemma firstn_plus (a b : nat) (l : list A) :
  firstn (a + b) l = firstn a l ++ firstn b (skipn a l).
Proof.
  revert l; induction a as [|a IH]; intros l; [reflexivity|].
  destruct l as [|x l]; simpl.
  - now rewrite firstn_nil.
  - now rewrite IH.
Qed.

Lemma concat_rows_prefix (l : list A) (k : nat) :
  List.concat (map (fun i => firstn n (skipn (i * n) l)) (seq 0 k))
  = firstn (k * n) l.
Proof.
  induction k as [|k IH]; [reflexivity|].
  rewrite seq_S, map_app, concat_app, IH. simpl.
  rewrite app_nil_r, <- firstn_plus. f_equal. lia.
Qed.

Lemma concat_chunk (l : list A) : List.concat (chunk n l) = l.
Proof.
  unfold chunk. rewrite concat_rows_prefix.
  apply firstn_all2, row_count_covers.
Qed.

Lemma length_chunk (l : list A) :
  List.length (chunk n l) = row_count n (List.length l).
Proof. unfold chunk. now rewrite length_map, length_seq. Qed.

Lemma chunk_rows_bounded (l : list A) :
  Forall (fun row => 1 <= List.length row <= n) (chunk n l).
Proof.
  apply Forall_forall. intros row Hin.
  unfold chunk in Hin. apply in_map_iff in Hin as (i & <- & Hi).
  apply in_seq in Hi.
  assert (i * n < List.length l) by (apply row_count_tight; lia).
  rewrite length_firstn, length_skipn. lia.
Qed.

Lemma chunk_position (l : list A) (i : nat) :
  i < List.length l ->
  nth_error (nth (i / n) (chunk n l) []) (i mod n) = nth_error l i.
Proof.
  intros Hi. unfold chunk.
  assert (i / n < row_count n (List.length l)) as Hq.
  { apply Nat.Div0.div_lt_upper_bound.
    pose proof (row_count_covers (List.length l)). nia. }
  rewrite nth_map_seq by assumption.
  rewrite nth_error_firstn.
  pose proof (Nat.mod_upper_bound i n ltac:(lia)) as Hm.
  apply Nat.ltb_lt in Hm. rewrite Hm.
  rewrite nth_error_skipn. f_equal.
  pose proof (Nat.div_mod_eq i n). lia.
Qed.

End Chunk.

(** * Facts about traversals that can throw *)

Section MapM.

Variables A B : Type.
Variable f : A -> Js.Result B.

Lemma mapM_pointwise (l : list A) (ys : list B) :
  Forall2 (fun x y => f x = Ok y) l ys -> mapM f l = Ok ys.
Proof.
  induction 1 as [|x y l ys Hxy _ IH]; simpl; [reflexivity|].
  now rewrite Hxy, IH.
Qed.


Lemma mapM_over_map {I : Type} (g : I -> A) (h : I -> B) (idx : list I) :
  (forall i, In i idx -> f (g i) = Ok (h i)) ->
  mapM f (map g idx) = Ok (map h idx).
Proof.
  induction idx as [|i idx IH]; intros H; simpl; [reflexivity|].
  rewrite (H i) by now left. simpl.
  rewrite IH by (intros; apply H; now right). reflexivity.
Qed.

End MapM.

Lemma Forall2_firstn {A B} (R : A -> B -> Prop) (k : nat) l l' :
  Forall2 R l l' -> Forall2 R (firstn k l) (firstn k l').
Proof.
  intros H; revert k; induction H; intros [|k]; simpl; constructor; auto.
Qed.

Lemma Forall2_skipn {A B} (R : A -> B -> Prop) (k : nat) l l' :
  Forall2 R l l' -> Forall2 R (skipn k l) (skipn k l').
Proof.
  intros H; revert k; induction H; intros [|k]; simpl; auto.
Qed.

Lemma Forall2_keep {A B} (R : A -> B -> Prop) (keep : A -> bool) l l' :
  Forall2 (fun x y => keep x = true /\ R x y) l l' ->
  filter keep l = l /\ Forall2 R l l'.
Proof.
  induction 1 as [|x y l l' [Hk HR] _ [IHf IHR]]; simpl.
  - split; constructor.
  - rewrite Hk, IHf. split; [reflexivity | now constructor].
Qed.

(** * Facts about [FlatList] *)

Lemma FlatList_grid (p : FlatListProps.t) (items : list Js.Value)
      (cs : list Cell) (m : nat) :
  items_of (FlatListProps.data p) = items ->
  FlatListProps.numColumns p = S (S m) ->
  mountable (FlatListProps.ListHeaderComponent p tt) = true ->
  Forall2 (fun it c => nullish it = false /\ render_cell p it = Ok c) items cs ->
  FlatList p
  = Ok (Grid (FlatListProps.ListHeaderComponent p tt) (S (S m))
             (chunk (S (S m)) cs)).
Proof.
  intros Hd Hn Hh Hall. unfold FlatList, mount. rewrite Hd, Hn, Hh. cbn [bind].
  unfold rows_of, chunk. rewrite map_map.
  rewrite (Forall2_length Hall).
  rewrite mapM_over_map
    with (h := fun i => firstn (S (S m)) (skipn (i * S (S m)) cs));
    [reflexivity|].
  intros i _.
  assert (Forall2 (fun it c => negb (nullish it) = true /\ render_cell p it = Ok c)
            (firstn (S (S m)) (skipn (i * S (S m)) items))
            (firstn (S (S m)) (skipn (i * S (S m)) cs))) as Hrow.
  { apply Forall2_firstn, Forall2_skipn.
    eapply Forall2_impl; [|exact Hall].
    intros it c [Hnn Hc]. now rewrite Hnn. }
  apply Forall2_keep in Hrow as [-> Hrow].
  now apply mapM_pointwise.
Qed.

(** * Facts about well-formed payloads *)

Lemma traverse_inv {A B} (f : A -> option B) (l : list A) (ys : list B) :
  Schema.traverse f l = Some ys -> Forall2 (fun x y => f x = Some y) l ys.
Proof.
  revert ys; induction l as [|x l IH]; intros ys; simpl.
  - intros [= <-]. constructor.
  - destruct (f x) as [y|] eqn:Ey; [|discriminate].
    destruct (Schema.traverse f l) as [zs|]; [|discriminate].
    intros [= <-]. constructor; auto.
Qed.

Lemma traverse_map {A B} (f : A -> option B) (g : B -> A) (ys : list B) :
  (forall y, f (g y) = Some y) -> Schema.traverse f (map g ys) = Some ys.
Proof.
  intros H. induction ys as [|y ys IH]; simpl; [reflexivity|].
  now rewrite H, IH.
Qed.

Lemma products_of_payload_of (ps : list Schema.Product) :
  Schema.products_of (Schema.payload_of ps) = Some ps.
Proof.
  unfold Schema.products_of, Schema.payload_of. cbn.
  apply traverse_map. now intros [i nm d [u]].
Qed.

Lemma products_of_inv (d : Js.Value) (ps : list Schema.Product) :
  Schema.products_of d = Some ps ->
  exists es, get d "products" .> "edges" = Ok (Arr es)
             /\ Forall2 (fun it p => Schema.edge_of it = Some p) es ps.
Proof.
  unfold Schema.products_of.
  destruct (get d "products" .> "edges") as [[]|]; try discriminate.
  intros H. eexists. split; [reflexivity|]. now apply traverse_inv.
Qed.

Lemma edge_renders (item : Js.Value) (p : Schema.Product) :
  Schema.edge_of item = Some p ->
  nullish item = false
  /\ ProductsTsx.keyExtractor item = Ok (fst (product_cell p))
  /\ ProductsTsx.renderItem item = Ok (snd (product_cell p)).
Proof.
  unfold Schema.edge_of.
  destruct (get item "node") as [nd|] eqn:En; [|discriminate].
  unfold Schema.node_of.
  destruct (get nd "id") as [[]|] eqn:Ei; try discriminate.
  destruct (get nd "name") as [[]|] eqn:Enm; try discriminate.
  destruct (get nd "description") as [dv|] eqn:Ed; try discriminate.
  destruct (get nd "thumbnail" .> "url") as [[]|] eqn:Eu; try discriminate.
  intros [= <-].
  unfold ProductsTsx.keyExtractor, ProductsTsx.renderItem.
  rewrite En. cbn [bind]. rewrite Ei, Eu, Enm.
  repeat split. destruct item; try reflexivity; discriminate.
Qed.

Lemma edges_render (es : list Js.Value) (ps : list Schema.Product)
      (p : FlatListProps.t) :
  FlatListProps.keyExtractor p = ProductsTsx.keyExtractor ->
  FlatListProps.renderItem p = ProductsTsx.renderItem ->
  Forall2 (fun it q => Schema.edge_of it = Some q) es ps ->
  Forall2 (fun it c => nullish it = false /\ render_cell p it = Ok c)
          es (map product_cell ps).
Proof.
  intros Hk Hr. induction 1 as [|it q es ps Hq _ IH]; simpl; constructor; auto.
  destruct (edge_renders _ _ Hq) as (Hn & Hkey & Hcell).
  split; [assumption|].
  unfold render_cell. rewrite Hk, Hr, Hkey, Hcell. now destruct q.
Qed.

(** * Facts about [Products] *)

Lemma Products_without_provider (props : Js.Value) (env : Env) :
  seen env = None ->
  ProductsTsx.Products props env
  = {| dispatched := []; result := Throw InvariantError |}.
Proof.
  unfold seen, ProductsTsx.Products, rbind, useQuery.
  destruct (context env); [discriminate|reflexivity].
Qed.

Lemma Products_dispatch (props : Js.Value) (env : Env) (c : ApolloClient) :
  context env = Some c ->
  dispatched (ProductsTsx.Products props env) = [asked c].
Proof.
  intros Hc. unfold ProductsTsx.Products, rbind, useQuery. rewrite Hc.
  cbn -[FlatList]. fold (asked c).
  destruct (loading (answer env (asked c))); cbn -[FlatList].
  - reflexivity.
  - destruct (_ <- _ ;; FlatList _); reflexivity.
Qed.

Lemma Products_loading (props : Js.Value) (env : Env) (r : QueryResult) :
  seen env = Some r -> loading r = true ->
  result (ProductsTsx.Products props env) = Ok loading_view.
Proof.
  unfold seen. destruct (context env) as [c|] eqn:Hc; [|discriminate].
  intros [= <-] Hl.
  unfold ProductsTsx.Products, rbind, useQuery. rewrite Hc.
  cbn -[FlatList]. fold (asked c). rewrite Hl. reflexivity.
Qed.

(** With [loading] false the body of the component is the list built
    from [data.products.edges]. *)
Lemma Products_loaded (props : Js.Value) (env : Env) (r : QueryResult) :
  seen env = Some r -> loading r = false ->
  result (ProductsTsx.Products props env)
  = (body <- (edges <- get (data r) "products" .> "edges" ;;
              FlatList (list_props edges)) ;;
     Ok (SafeAreaView (ProductsTsx.container ProductsTsx.styles) [body])).
Proof.
  unfold seen. destruct (context env) as [c|] eqn:Hc; [|discriminate].
  intros [= <-] Hl.
  unfold ProductsTsx.Products, rbind, useQuery. rewrite Hc.
  cbn -[FlatList]. fold (asked c). rewrite Hl.
  destruct (_ <- _ ;; FlatList _); reflexivity.
Qed.

Lemma Products_resolved (props : Js.Value) (env : Env) (r : QueryResult)
      (ps : list Schema.Product) :
  seen env = Some r -> loading r = false ->
  Schema.products_of (data r) = Some ps ->
  result (ProductsTsx.Products props env)
  = Ok (grid_view (chunk 2 (map product_cell ps))).
Proof.
  intros Hs Hl Hp. rewrite (Products_loaded props env r Hs Hl).
  apply products_of_inv in Hp as (es & -> & Hes).
  cbn [bind].
  erewrite FlatList_grid with (m := 0);
    [reflexivity | reflexivity | reflexivity | reflexivity |].
  now apply edges_render.
Qed.

Lemma flat_map_nil {A B} (f : A -> list B) (l : list A) :
  (forall x, In x l -> f x = []) -> flat_map f l = [].
Proof.
  induction l as [|x l IH]; intros H; simpl; [reflexivity|].
  rewrite (H x) by now left. apply IH. intros; apply H; now right.
Qed.

Lemma Forall2_nth_error {A B} (R : A -> B -> Prop) l l' (i : nat) (x : A) :
  Forall2 R l l' -> nth_error l i = Some x ->
  exists y, nth_error l' i = Some y /\ R x y.
Proof.
  intros H; revert i; induction H as [|a b l l' Hab _ IH]; intros [|i]; simpl;
    try discriminate.
  - intros [= <-]. eauto.
  - apply IH.
Qed.

Lemma NoDup_map_Str (l : list string) : NoDup l -> NoDup (map Str l).
Proof.
  induction 1 as [|a l Hnot _ IH]; simpl; constructor; [|assumption].
  intros Hin. apply in_map_iff in Hin as (b & [= ->] & Hb). contradiction.
Qed.

(** The one grid of the loaded view holds the product cells and
    nothing nested. *)
Lemma grids_grid_view (ps : list Schema.Product) :
  grids (grid_view (chunk 2 (map product_cell ps)))
  = [(2, chunk 2 (map product_cell ps))].
Proof.
  unfold grid_view. cbn [grids flat_map ProductsTsx.ListHeaderComponent app].
  rewrite app_nil_r. f_equal.
  apply flat_map_nil. intros row Hrow.
  apply flat_map_nil. intros c Hc.
  assert (In c (map product_cell ps)) as Hin.
  { rewrite <- (concat_chunk _ 2 ltac:(lia) (map product_cell ps)).
    apply in_concat. eauto. }
  apply in_map_iff in Hin as (p & <- & _). reflexivity.
Qed.

Lemma cells_grid_view (ps : list Schema.Product) :
  cells (grid_view (chunk 2 (map product_cell ps))) = map product_cell ps.
Proof.
  unfold cells. rewrite grids_grid_view. cbn [flat_map snd].
  rewrite app_nil_r. apply concat_chunk. lia.
Qed.

Lemma edge_fields (item : Js.Value) (p : Schema.Product) :
  Schema.edge_of item = Some p ->
  get item "node" .> "id" = Ok (Str (Schema.id p))
  /\ get item "node" .> "name" = Ok (Str (Schema.name p))
  /\ get item "node" .> "thumbnail" .> "url"
     = Ok (Str (Schema.url (Schema.thumbnail p))).
Proof.
  unfold Schema.edge_of.
  destruct (get item "node") as [nd|] eqn:En; [|discriminate].
  unfold Schema.node_of.
  destruct (get nd "id") as [[]|] eqn:Ei; try discriminate.
  destruct (get nd "name") as [[]|] eqn:Enm; try discriminate.
  destruct (get nd "description") as [dv|] eqn:Ed; try discriminate.
  destruct (get nd "thumbnail" .> "url") as [[]|] eqn:Eu; try discriminate.
  intros [= <-]. cbn [bind Schema.id Schema.name Schema.thumbnail Schema.url].
  now rewrite Ei, Enm, Eu.
Qed.

(** * The rendering contracts *)

(** C1.  A resolved result with N records (N between 0 and 10) renders
    as one grid of two columns with exactly N item cells; the texts of
    the cell of a record are its name and the literal price "$4.50";
    the cells fill N / 2 rows, rounded up, every row holds one or two
    cells, and cell [i] sits in row [i / 2] at column [i mod 2].  The
    bound on N is the page size of the query; the proof does not need
    it. *)
Theorem resolved_result_renders_grid
    (props : Js.Value) (env : Env) (r : QueryResult)
    (ps : list Schema.Product) :
  seen env = Some r ->
  loading r = false ->
  Schema.products_of (data r) = Some ps ->
  List.length ps <= 10 ->
  exists tree rows,
    result (ProductsTsx.Products props env) = Ok tree
    /\ grids tree = [(2, rows)]
    /\ List.length (cells tree) = List.length ps
    /\ Forall2 (fun p c => texts (snd c) = [Str (Schema.name p); Str "$4.50"])
               ps (cells tree)
    /\ List.length rows = (List.length ps + 1) / 2
    /\ Forall (fun row => 1 <= List.length row <= 2) rows
    /\ (forall i, i < List.length ps ->
          nth_error (nth (i / 2) rows []) (i mod 2) = nth_error (cells tree) i).
Proof.
  intros Hs Hl Hp _.
  exists (grid_view (chunk 2 (map product_cell ps))),
         (chunk 2 (map product_cell ps)).
  rewrite cells_grid_view.
  split; [now apply Products_resolved with (r := r)|].
  split; [apply grids_grid_view|].
  split; [apply length_map|].
  split; [clear; induction ps; simpl; constructor; auto|].
  split.
  - rewrite length_chunk, length_map. unfold row_count. f_equal. lia.
  - split; [apply chunk_rows_bounded; lia|].
    intros i Hi. apply chunk_position; [lia|]. now rewrite length_map.
Qed.

Lemma resolved_result_renders_grid_witness :
  exists tree rows,
    result (ProductsTsx.Products (Obj []) sample_env) = Ok tree
    /\ grids tree = [(2, rows)]
    /\ List.length (cells tree) = 3
    /\ Forall2 (fun p c => texts (snd c) = [Str (Schema.name p); Str "$4.50"])
               sample_products (cells tree)
    /\ List.length rows = 2
    /\ Forall (fun row => 1 <= List.length row <= 2) rows
    /\ (forall i, i < 3 ->
          nth_error (nth (i / 2) rows []) (i mod 2) = nth_error (cells tree) i).
Proof.
  apply (resolved_result_renders_grid (Obj []) sample_env sample_result
           sample_products);
    [reflexivity | reflexivity | reflexivity | simpl; lia].
Defined.

(** C2.  While the result is pending ([loading] is true) the output is
    the loading text and nothing else: its only text is "Loading", and
    it holds no grid and no item cell. *)
Theorem pending_result_renders_loading
    (props : Js.Value) (env : Env) (r : QueryResult) :
  seen env = Some r ->
  loading r = true ->
  exists tree,
    result (ProductsTsx.Products props env) = Ok tree
    /\ texts tree = [Str "Loading"]
    /\ grids tree = []
    /\ cells tree = [].
Proof.
  intros Hs Hl. exists loading_view.
  split; [now apply Products_loading with (r := r)|].
  repeat split.
Qed.

Lemma pending_result_renders_loading_witness :
  exists tree,
    result (ProductsTsx.Products (Obj []) pending_env) = Ok tree
    /\ texts tree = [Str "Loading"]
    /\ grids tree = []
    /\ cells tree = [].
Proof.
  apply (pending_result_renders_loading (Obj []) pending_env (report Pending));
    reflexivity.
Defined.

Lemma FlatList_shape (p : FlatListProps.t) (e : Element) :
  FlatList p = Ok e ->
  exists rows,
    e = Grid (FlatListProps.ListHeaderComponent p tt)
             (FlatListProps.numColumns p) rows.
Proof.
  unfold FlatList, mount.
  destruct (mountable (FlatListProps.ListHeaderComponent p tt)).
  - repeat match goal with
           | |- bind ?x _ = _ -> _ => destruct x; cbn [bind]; try discriminate
           end.
    intros [= <-]. eauto.
  - match goal with
    | |- bind ?x _ = _ -> _ => destruct x; cbn [bind]; discriminate
    end.
Qed.

(** C3 (as amended).  The component has no failure path of its own and
    never reads [error]: it shows the loading view exactly when the
    reported [loading] flag is true, and when [loading] is false and
    [data] is absent, as a failed request is reported, the render
    throws a TypeError at [data.products]. *)
Theorem failed_query_throws
    (props : Js.Value) (env : Env) (r : QueryResult) :
  seen env = Some r ->
  (result (ProductsTsx.Products props env) = Ok loading_view
   <-> loading r = true)
  /\ (loading r = false -> nullish (data r) = true ->
      result (ProductsTsx.Products props env) = Throw TypeError).
Proof.
  intros Hs. split; [split|].
  - destruct (loading r) eqn:Hl; [reflexivity|].
    rewrite (Products_loaded props env r Hs Hl).
    destruct (get (data r) "products" .> "edges") as [edges|]; cbn [bind];
      [|discriminate].
    match goal with
    | |- bind ?x _ = _ -> _ => destruct x as [body|] eqn:Hb
    end; cbn [bind]; [|discriminate].
    apply FlatList_shape in Hb as [rows ->]. discriminate.
  - now apply Products_loading.
  - intros Hl Hd. rewrite (Products_loaded props env r Hs Hl).
    destruct (data r); try discriminate; reflexivity.
Qed.

Lemma failed_query_throws_witness :
  (result (ProductsTsx.Products (Obj []) failed_env) = Ok loading_view
   <-> false = true)
  /\ (false = false -> true = true ->
      result (ProductsTsx.Products (Obj []) failed_env) = Throw TypeError).
Proof.
  apply (failed_query_throws (Obj []) failed_env
           (report (Failed "Network request failed"))).
  reflexivity.
Defined.

(** C3 as stated does not hold: for a failed request the output is not
    the loading view; the render throws. *)
Lemma failed_query_is_not_loading_view :
  result (ProductsTsx.Products (Obj []) failed_env) = Throw TypeError
  /\ result (ProductsTsx.Products (Obj []) failed_env)
     <> result (ProductsTsx.Products (Obj []) pending_env).
Proof. split; [reflexivity | discriminate]. Qed.

(** C4.  For a resolved result the key of every rendered item is the
    [id] of its record, read as [item.node.id] from the edge it was
    rendered from; when the identifiers are unique the keys are
    pairwise distinct. *)
Theorem keys_are_product_ids
    (props : Js.Value) (env : Env) (r : QueryResult)
    (ps : list Schema.Product) :
  seen env = Some r ->
  loading r = false ->
  Schema.products_of (data r) = Some ps ->
  exists tree es,
    result (ProductsTsx.Products props env) = Ok tree
    /\ get (data r) "products" .> "edges" = Ok (Arr es)
    /\ Forall2 (fun it c => get it "node" .> "id" = Ok (fst c)) es (cells tree)
    /\ map fst (cells tree) = map (fun p => Str (Schema.id p)) ps
    /\ (NoDup (map Schema.id ps) -> NoDup (map fst (cells tree))).
Proof.
  intros Hs Hl Hp.
  destruct (products_of_inv _ _ Hp) as (es & Hes & Hall).
  exists (grid_view (chunk 2 (map product_cell ps))), es.
  rewrite cells_grid_view.
  split; [now apply Products_resolved with (r := r)|].
  split; [assumption|].
  assert (map fst (map product_cell ps) = map (fun p => Str (Schema.id p)) ps)
    as Hkeys by (rewrite map_map; reflexivity).
  split; [|split; [assumption|]].
  - clear -Hall. induction Hall as [|it p es ps Hit _ IH]; simpl; constructor; auto.
    now destruct (edge_fields _ _ Hit) as (-> & _).
  - intros Hnd. rewrite Hkeys, <- (map_map Schema.id Str).
    now apply NoDup_map_Str.
Qed.

Lemma keys_are_product_ids_witness :
  exists tree es,
    result (ProductsTsx.Products (Obj []) sample_env) = Ok tree
    /\ get (data sample_result) "products" .> "edges" = Ok (Arr es)
    /\ Forall2 (fun it c => get it "node" .> "id" = Ok (fst c)) es (cells tree)
    /\ map fst (cells tree) = map (fun p => Str (Schema.id p)) sample_products
    /\ (NoDup (map Schema.id sample_products) -> NoDup (map fst (cells tree))).
Proof.
  apply (keys_are_product_ids (Obj []) sample_env sample_result sample_products);
    reflexivity.
Defined.

(** C8.  Two resolved results whose records agree on everything but
    [description] render to the same output. *)
Theorem description_is_not_rendered
    (props1 props2 : Js.Value) (env1 env2 : Env) (r1 r2 : QueryResult)
    (ps1 ps2 : list Schema.Product) :
  seen env1 = Some r1 -> seen env2 = Some r2 ->
  loading r1 = false -> loading r2 = false ->
  Schema.products_of (data r1) = Some ps1 ->
  Schema.products_of (data r2) = Some ps2 ->
  Forall2 Schema.same_but_description ps1 ps2 ->
  exists tree,
    result (ProductsTsx.Products props1 env1) = Ok tree
    /\ result (ProductsTsx.Products props2 env2) = Ok tree.
Proof.
  intros Hs1 Hs2 Hl1 Hl2 Hp1 Hp2 Hsame.
  exists (grid_view (chunk 2 (map product_cell ps1))).
  split; [now apply Products_resolved with (r := r1)|].
  rewrite (Products_resolved props2 env2 r2 ps2 Hs2 Hl2 Hp2).
  do 3 f_equal.
  clear -Hsame. induction Hsame as [|p q ps1 ps2 (Hi & Hn & Ht) _ IH];
    simpl; [reflexivity|].
  rewrite IH. unfold product_cell. now rewrite Hi, Hn, Ht.
Qed.

Lemma description_is_not_rendered_witness :
  exists tree,
    result (ProductsTsx.Products (Obj []) sample_env) = Ok tree
    /\ result (ProductsTsx.Products (Obj []) redescribed_env) = Ok tree.
Proof.
  apply (description_is_not_rendered (Obj []) (Obj []) sample_env redescribed_env
           sample_result redescribed_result sample_products redescribed_products);
    try reflexivity.
  repeat constructor.
Defined.

(** C10.  For a resolved result the cells are the pointwise image of
    the edges array under the item renderer, in order: there are as
    many cells as edges, and cell [i] is what [renderItem] returns for
    edge [i], showing the [name] and the [thumbnail.url] of that edge's
    node. *)
Theorem cells_follow_edges
    (props : Js.Value) (env : Env) (r : QueryResult)
    (ps : list Schema.Product) :
  seen env = Some r ->
  loading r = false ->
  Schema.products_of (data r) = Some ps ->
  exists tree es,
    result (ProductsTsx.Products props env) = Ok tree
    /\ get (data r) "products" .> "edges" = Ok (Arr es)
    /\ List.length (cells tree) = List.length es
    /\ (forall i it, nth_error es i = Some it ->
          exists c nm u,
            nth_error (cells tree) i = Some c
            /\ ProductsTsx.renderItem it = Ok (snd c)
            /\ get it "node" .> "name" = Ok nm
            /\ get it "node" .> "thumbnail" .> "url" = Ok u
            /\ In nm (texts (snd c))
            /\ images (snd c) = [u]).
Proof.
  intros Hs Hl Hp.
  destruct (products_of_inv _ _ Hp) as (es & Hes & Hall).
  exists (grid_view (chunk 2 (map product_cell ps))), es.
  rewrite cells_grid_view.
  split; [now apply Products_resolved with (r := r)|].
  split; [assumption|].
  split; [rewrite length_map; symmetry; exact (Forall2_length Hall)|].
  intros i it Hit.
  destruct (Forall2_nth_error _ _ _ i it Hall Hit) as (p & Hp' & Hedge).
  destruct (edge_fields _ _ Hedge) as (_ & Hnm & Hu).
  destruct (edge_renders _ _ Hedge) as (_ & _ & Hcell).
  exists (product_cell p), (Str (Schema.name p)),
         (Str (Schema.url (Schema.thumbnail p))).
  split; [now apply map_nth_error|].
  repeat split; try assumption. simpl. auto.
Qed.

Lemma cells_follow_edges_witness :
  exists tree es,
    result (ProductsTsx.Products (Obj []) sample_env) = Ok tree
    /\ get (data sample_result) "products" .> "edges" = Ok (Arr es)
    /\ List.length (cells tree) = List.length es
    /\ (forall i it, nth_error es i = Some it ->
          exists c nm u,
            nth_error (cells tree) i = Some c
            /\ ProductsTsx.renderItem it = Ok (snd c)
            /\ get it "node" .> "name" = Ok nm
            /\ get it "node" .> "thumbnail" .> "url" = Ok u
            /\ In nm (texts (snd c))
            /\ images (snd c) = [u]).
Proof.
  apply (cells_follow_edges (Obj []) sample_env sample_result sample_products);
    reflexivity.
Defined.

(** * The query and the client *)

Lemma App_dispatch (props : Js.Value) (env : Env) :
  dispatched (AppTsx.App props env) = [asked AppTsx.client].
Proof.
  pose proof (Products_dispatch (Obj [])
                {| context := Some AppTsx.client; answer := answer env |}
                AppTsx.client eq_refl) as Hd.
  unfold AppTsx.App, provide, rbind, ret. cbv beta zeta.
  destruct (result (ProductsTsx.Products (Obj []) _));
    cbn [dispatched]; rewrite Hd; reflexivity.
Qed.

(** C5.  Whatever the props and whatever the environment, every query
    a render of [Products] hands to the client is the same document,
    it declares no variable, and its arguments are page size 10 and
    channel "default-channel"; under a provider exactly one such query
    is handed over per render. *)
Theorem query_arguments_are_constant
    (props1 props2 : Js.Value) (env1 env2 : Env) (q1 q2 : Request) :
  In q1 (dispatched (ProductsTsx.Products props1 env1)) ->
  In q2 (dispatched (ProductsTsx.Products props2 env2)) ->
  document q1 = document q2
  /\ Gql.variableDefinitions (document q1) = []
  /\ Gql.arguments (document q1)
     = [("first", Gql.IntValue 10);
        ("channel", Gql.StringValue "default-channel")]
  /\ (forall c, context env1 = Some c ->
        dispatched (ProductsTsx.Products props1 env1)
        = [{| endpoint := uri c; document := document q1 |}]).
Proof.
  assert (forall props env q,
             In q (dispatched (ProductsTsx.Products props env)) ->
             document q = ProductsTsx.GET_PRODUCTS) as Hdoc.
  { intros props env q. destruct (context env) as [c|] eqn:Hc.
    - rewrite (Products_dispatch props env c Hc). intros [<-|[]]. reflexivity.
    - rewrite Products_without_provider; [intros []|].
      unfold seen. now rewrite Hc. }
  intros H1 H2. rewrite (Hdoc _ _ _ H1), (Hdoc _ _ _ H2).
  repeat split. intros c Hc. apply Products_dispatch, Hc.
Qed.

Lemma query_arguments_are_constant_witness :
  document (asked AppTsx.client) = document (asked AppTsx.client)
  /\ Gql.variableDefinitions (document (asked AppTsx.client)) = []
  /\ Gql.arguments (document (asked AppTsx.client))
     = [("first", Gql.IntValue 10);
        ("channel", Gql.StringValue "default-channel")]
  /\ (forall c, context pending_env = Some c ->
        dispatched (ProductsTsx.Products Null pending_env)
        = [{| endpoint := uri c; document := document (asked AppTsx.client) |}]).
Proof.
  apply (query_arguments_are_constant Null (Obj [("page", Num 2)])
           pending_env sample_env (asked AppTsx.client) (asked AppTsx.client));
    simpl; left; reflexivity.
Defined.

(** C7.  Every render of [App], in every environment, hands exactly one
    request to the client: the query [getProducts], sent to
    https://demo.saleor.io/graphql/.  The client is the module constant
    bound to that URL with a new, empty cache; the document is a query
    (not a mutation) asking for [id], [name], [description] and
    [thumbnail.url] of the nodes of the first 10 edges of one fixed
    channel. *)
Theorem one_query_one_endpoint (props : Js.Value) (env : Env) :
  dispatched (AppTsx.App props env)
  = [{| endpoint := "https://demo.saleor.io/graphql/";
        document := ProductsTsx.GET_PRODUCTS |}]
  /\ uri AppTsx.client = "https://demo.saleor.io/graphql/"
  /\ String.prefix "https://" (uri AppTsx.client) = true
  /\ cache AppTsx.client = InMemoryCache_new
  /\ entries (cache AppTsx.client) = []
  /\ Gql.operation ProductsTsx.GET_PRODUCTS = Gql.QUERY
  /\ Gql.leaves ProductsTsx.GET_PRODUCTS
     = ["products.edges.node.id"; "products.edges.node.name";
        "products.edges.node.description";
        "products.edges.node.thumbnail.url"]
  /\ Gql.arguments ProductsTsx.GET_PRODUCTS
     = [("first", Gql.IntValue 10);
        ("channel", Gql.StringValue "default-channel")].
Proof.
  split; [apply App_dispatch|]. repeat split.
Qed.

(** * The header *)

Lemma App_result (props : Js.Value) (env : Env) :
  result (AppTsx.App props env)
  = (body <- result (ProductsTsx.Products (Obj []) (inside_provider env)) ;;
     Ok (ApolloProvider AppTsx.client
           [View (AppTsx.container AppTsx.styles)
              [StatusBar "auto"; header_view; body]])).
Proof.
  unfold AppTsx.App, provide, rbind, ret. cbv beta zeta.
  fold (inside_provider env).
  destruct (result (ProductsTsx.Products (Obj []) (inside_provider env)));
    reflexivity.
Qed.

Lemma texts_of_app (c : ApolloClient) (st : Style) (body : Element) :
  texts (ApolloProvider c [View st [StatusBar "auto"; header_view; body]])
  = texts header_view ++ texts body.
Proof.
  change ((texts header_view ++ texts body ++ []) ++ []
          = texts header_view ++ texts body).
  now rewrite !app_nil_r.
Qed.

(** C6.  Take a render of [App] while the query is pending and one
    once it has resolved.  Both succeed, and the header region is the
    same element in both: a view with the blue background whose only
    text is "React Native Demo Home Page".  In each tree the header
    text comes once, before the texts of the list region, and the list
    regions of the two trees differ. *)
Theorem header_is_independent_of_loading
    (props1 props2 : Js.Value) (env1 env2 : Env)
    (ps : list Schema.Product) :
  loading (answer env1 (asked AppTsx.client)) = true ->
  loading (answer env2 (asked AppTsx.client)) = false ->
  Schema.products_of (data (answer env2 (asked AppTsx.client))) = Some ps ->
  exists t1 t2 h b1 b2,
    result (AppTsx.App props1 env1) = Ok t1
    /\ result (AppTsx.App props2 env2) = Ok t2
    /\ AppTsx.header_region t1 = Some h
    /\ AppTsx.header_region t2 = Some h
    /\ texts h = [Str "React Native Demo Home Page"]
    /\ (exists st cs, h = View st cs /\ lookup "backgroundColor" st = Str "blue")
    /\ AppTsx.body_region t1 = Some b1
    /\ AppTsx.body_region t2 = Some b2
    /\ b1 <> b2
    /\ texts t1 = texts h ++ texts b1
    /\ texts t2 = texts h ++ texts b2.
Proof.
  intros Hl1 Hl2 Hp.
  pose proof (Products_loading (Obj []) (inside_provider env1) _ eq_refl Hl1) as R1.
  pose proof (Products_resolved (Obj []) (inside_provider env2) _ ps eq_refl Hl2 Hp)
    as R2.
  eexists _, _, header_view, loading_view, (grid_view _).
  rewrite !App_result, R1, R2. cbn [bind].
  repeat split; try reflexivity.
  - eexists _, _. split; reflexivity.
  - discriminate.
  - apply texts_of_app.
Qed.

Lemma header_is_independent_of_loading_witness :
  exists t1 t2 h b1 b2,
    result (AppTsx.App (Obj []) pending_env) = Ok t1
    /\ result (AppTsx.App (Obj []) sample_env) = Ok t2
    /\ AppTsx.header_region t1 = Some h
    /\ AppTsx.header_region t2 = Some h
    /\ texts h = [Str "React Native Demo Home Page"]
    /\ (exists st cs, h = View st cs /\ lookup "backgroundColor" st = Str "blue")
    /\ AppTsx.body_region t1 = Some b1
    /\ AppTsx.body_region t2 = Some b2
    /\ b1 <> b2
    /\ texts t1 = texts h ++ texts b1
    /\ texts t2 = texts h ++ texts b2.
Proof.
  apply (header_is_independent_of_loading (Obj []) (Obj []) pending_env
           sample_env sample_products);
    reflexivity.
Defined.

(** * Where rendering is defined *)

Lemma get_total (v : Js.Value) (k k' : string) (x : Js.Value) :
  get v k = Ok x -> exists y, get v k' = Ok y.
Proof. destruct v; simpl; try discriminate; eauto. Qed.

Lemma get_nullish (v : Js.Value) (k : string) :
  nullish v = true -> get v k = Throw TypeError.
Proof. destruct v; simpl; try discriminate; reflexivity. Qed.

Lemma get_present (v : Js.Value) (k : string) :
  nullish v = false -> exists y, get v k = Ok y.
Proof. destruct v; simpl; try discriminate; eauto. Qed.

Lemma get_error (v : Js.Value) (k : string) (e : Js.Error) :
  get v k = Throw e -> e = TypeError.
Proof. destruct v; simpl; try discriminate; now intros [= <-]. Qed.












(** Nor is the stated precondition sufficient: a node whose name is an
    object satisfies it, and mounting its cell throws. *)
Lemma throws_inside_stated_precondition :
  stated_precondition object_name_result = true
  /\ result (ProductsTsx.Products (Obj []) object_name_env) = Throw ChildError.
Proof. split; reflexivity. Qed.


(** * Further properties of the components *)

(** ** The item callbacks *)

Lemma lookup_missing (k : string) (fields : list (string * Js.Value)) :
  ~ In k (map fst fields) -> lookup k fields = Undefined.
Proof.
  induction fields as [|[k' v] rest IH]; simpl; [reflexivity|].
  intros Hnot. destruct (String.eqb_spec k k') as [->|Hne].
  - exfalso. apply Hnot. now left.
  - apply IH. intros Hin. apply Hnot. now right.
Qed.

(** X1.  [renderItem] succeeds exactly on the items whose node is
    present with a thumbnail that is neither [null] nor [undefined].
    It then shows whatever [item.node.name] and
    [item.node.thumbnail.url] read as, a missing one as [undefined],
    followed by the price text, which no field of the item can change.
    On every other item it throws a TypeError. *)
Theorem renderItem_domain (item : Js.Value) :
  if edge_is_safe item
  then exists e nm u,
         ProductsTsx.renderItem item = Ok e
         /\ get item "node" .> "name" = Ok nm
         /\ get item "node" .> "thumbnail" .> "url" = Ok u
         /\ texts e = [nm; Str "$4.50"]
         /\ images e = [u]
  else ProductsTsx.renderItem item = Throw TypeError.
Proof.
  unfold edge_is_safe, ProductsTsx.renderItem.
  destruct (get item "node") as [nd|e0] eqn:En; cbn [bind].
  - destruct (get nd "thumbnail") as [th|e1] eqn:Et; cbn [bind].
    + destruct (nullish th) eqn:Hth; cbn [negb].
      * now rewrite (get_nullish th "url" Hth).
      * destruct (get_present th "url" Hth) as [u ->].
        destruct (get_total nd "thumbnail" "name" th Et) as [nm ->].
        cbn [bind]. eexists _, nm, u. repeat split.
    + now rewrite (get_error _ _ _ Et).
  - now rewrite (get_error _ _ _ En).
Qed.

(** X2.  Key extraction reaches no deeper than the node: whenever
    [renderItem] succeeds on an item so does [keyExtractor]; when
    [keyExtractor] throws, it is a TypeError and [renderItem] throws
    as well; and there are items, such as a node without a thumbnail,
    that have a key and yet cannot be rendered. *)
Theorem keyExtractor_needs_less_than_renderItem :
  (forall item e, ProductsTsx.renderItem item = Ok e ->
                  exists k, ProductsTsx.keyExtractor item = Ok k)
  /\ (forall item err, ProductsTsx.keyExtractor item = Throw err ->
                       err = TypeError
                       /\ ProductsTsx.renderItem item = Throw TypeError)
  /\ ProductsTsx.keyExtractor bare_edge = Ok (Str "UHJvZHVjdDo5OQ==")
  /\ ProductsTsx.renderItem bare_edge = Throw TypeError.
Proof.
  split; [|split; [|split; reflexivity]].
  - intros item e. unfold ProductsTsx.renderItem, ProductsTsx.keyExtractor.
    destruct (get item "node") as [nd|] eqn:En; cbn [bind]; [|discriminate].
    destruct (get nd "thumbnail") as [th|] eqn:Et; cbn [bind]; [|discriminate].
    intros _. destruct (get_total nd "thumbnail" "id" th Et) as [i ->]. eauto.
  - intros item err. unfold ProductsTsx.renderItem, ProductsTsx.keyExtractor.
    destruct (get item "node") as [nd|e0] eqn:En; cbn [bind].
    + intros Hid. pose proof (get_error _ _ _ Hid) as ->. split; [reflexivity|].
      destruct nd; simpl in Hid; try discriminate; reflexivity.
    + intros [= <-]. now rewrite (get_error _ _ _ En).
Qed.

(** X3.  A node that carries no [id] field still gets a key: the value
    [undefined].  All such items therefore share one key. *)
Theorem keyExtractor_without_id
    (item : Js.Value) (fields : list (string * Js.Value)) :
  get item "node" = Ok (Obj fields) ->
  ~ In "id" (map fst fields) ->
  ProductsTsx.keyExtractor item = Ok Undefined.
Proof.
  intros Hn Hid. unfold ProductsTsx.keyExtractor. rewrite Hn. cbn [bind get].
  now rewrite lookup_missing.
Qed.

Lemma keyExtractor_without_id_witness :
  ProductsTsx.keyExtractor nameless_edge = Ok Undefined.
Proof.
  apply (keyExtractor_without_id nameless_edge
           [("slug", Str "mystery"); ("thumbnail", Obj [])]).
  - reflexivity.
  - simpl. intros [H|[H|[]]]; discriminate.
Defined.

(** ** The loaded view as a whole *)

Lemma flat_map_concat {A B} (f : A -> list B) (ls : list (list A)) :
  flat_map (flat_map f) ls = flat_map f (List.concat ls).
Proof.
  induction ls as [|l ls IH]; simpl; [reflexivity|].
  now rewrite flat_map_app, IH.
Qed.

Lemma texts_grid_view (rows : list (list Cell)) :
  texts (grid_view rows)
  = Str "Products" :: flat_map (fun c => texts (snd c)) (List.concat rows).
Proof.
  unfold grid_view. cbn [texts flat_map ProductsTsx.ListHeaderComponent app].
  rewrite app_nil_r. f_equal. rewrite <- flat_map_concat.
  apply flat_map_ext. intros row. apply flat_map_ext. now intros [k x].
Qed.

Lemma images_grid_view (rows : list (list Cell)) :
  images (grid_view rows)
  = flat_map (fun c => images (snd c)) (List.concat rows).
Proof.
  unfold grid_view. cbn [images flat_map ProductsTsx.ListHeaderComponent app].
  rewrite app_nil_r. rewrite <- flat_map_concat.
  apply flat_map_ext. intros row. apply flat_map_ext. now intros [k x].
Qed.

(** X4.  Everything the loaded view shows: the title "Products" once,
    then for each record in response order its name followed by
    "$4.50"; and its images are the records' thumbnail URLs in the same
    order.  With no records only the title is left. *)
Theorem loaded_view_content
    (props : Js.Value) (env : Env) (r : QueryResult)
    (ps : list Schema.Product) :
  seen env = Some r ->
  loading r = false ->
  Schema.products_of (data r) = Some ps ->
  exists tree,
    result (ProductsTsx.Products props env) = Ok tree
    /\ texts tree
       = Str "Products"
         :: flat_map (fun p => [Str (Schema.name p); Str "$4.50"]) ps
    /\ images tree
       = map (fun p => Str (Schema.url (Schema.thumbnail p))) ps.
Proof.
  intros Hs Hl Hp. exists (grid_view (chunk 2 (map product_cell ps))).
  split; [now apply Products_resolved with (r := r)|].
  rewrite texts_grid_view, images_grid_view, concat_chunk by lia.
  split.
  - f_equal. clear. induction ps as [|p ps IH]; simpl; [reflexivity|].
    now rewrite IH.
  - clear. induction ps as [|p ps IH]; simpl; [reflexivity|].
    now rewrite IH.
Qed.

Lemma loaded_view_content_witness :
  exists tree,
    result (ProductsTsx.Products (Obj []) sample_env) = Ok tree
    /\ texts tree
       = Str "Products"
         :: flat_map (fun p => [Str (Schema.name p); Str "$4.50"])
                     sample_products
    /\ images tree
       = map (fun p => Str (Schema.url (Schema.thumbnail p))) sample_products.
Proof.
  apply (loaded_view_content (Obj []) sample_env sample_result sample_products);
    reflexivity.
Defined.

(** X5.  Nothing is deduplicated: the keys of the rendered cells are
    pairwise distinct exactly when the identifiers of the records are,
    so a response that repeats an id yields two cells with one key. *)
Theorem keys_distinct_iff_ids_distinct
    (props : Js.Value) (env : Env) (r : QueryResult)
    (ps : list Schema.Product) :
  seen env = Some r ->
  loading r = false ->
  Schema.products_of (data r) = Some ps ->
  exists tree,
    result (ProductsTsx.Products props env) = Ok tree
    /\ List.length (cells tree) = List.length ps
    /\ (NoDup (map fst (cells tree)) <-> NoDup (map Schema.id ps)).
Proof.
  intros Hs Hl Hp. exists (grid_view (chunk 2 (map product_cell ps))).
  split; [now apply Products_resolved with (r := r)|].
  rewrite cells_grid_view. split; [apply length_map|].
  replace (map fst (map product_cell ps)) with (map Str (map Schema.id ps))
    by (rewrite !map_map; reflexivity).
  split; [apply NoDup_map_inv | apply NoDup_map_Str].
Qed.

Lemma keys_distinct_iff_ids_distinct_witness :
  exists tree,
    result (ProductsTsx.Products (Obj []) sample_env) = Ok tree
    /\ List.length (cells tree) = 3
    /\ (NoDup (map fst (cells tree)) <-> NoDup (map Schema.id sample_products)).
Proof.
  apply (keys_distinct_iff_ids_distinct (Obj []) sample_env sample_result
           sample_products);
    reflexivity.
Defined.

(** ** What the output depends on *)

Lemma outcome_eq {A} (o o' : Outcome A) :
  dispatched o = dispatched o' -> result o = result o' -> o = o'.
Proof. destruct o, o'; simpl; intros -> ->; reflexivity. Qed.

Lemma Products_result_of (props props' : Js.Value) (env env' : Env)
      (r r' : QueryResult) :
  seen env = Some r -> seen env' = Some r' ->
  loading r = loading r' -> data r = data r' ->
  result (ProductsTsx.Products props env)
  = result (ProductsTsx.Products props' env').
Proof.
  intros Hs Hs' Hl Hd. destruct (loading r) eqn:El.
  - rewrite (Products_loading props env r Hs El).
    symmetry. apply (Products_loading props' env' r' Hs'). congruence.
  - rewrite (Products_loaded props env r Hs El).
    rewrite (Products_loaded props' env' r' Hs') by congruence.
    now rewrite Hd.
Qed.

(** X6.  The output of [Products] is a function of [loading] and
    [data] alone: two renders whose results agree on these two fields
    give the same output, whatever the props, the [error] field, the
    client in context and the results of other requests. *)
Theorem Products_reads_loading_and_data_only
    (props1 props2 : Js.Value) (env1 env2 : Env) (r1 r2 : QueryResult) :
  seen env1 = Some r1 -> seen env2 = Some r2 ->
  loading r1 = loading r2 ->
  data r1 = data r2 ->
  result (ProductsTsx.Products props1 env1)
  = result (ProductsTsx.Products props2 env2).
Proof. apply Products_result_of. Qed.

Lemma Products_reads_loading_and_data_only_witness :
  result (ProductsTsx.Products (Obj []) failed_env)
  = result (ProductsTsx.Products (Obj [("page", Num 2)])
              (under {| uri := "http://localhost:8000/graphql/";
                        cache := InMemoryCache_new |}
                     {| loading := false; data := Undefined; error := None |})).
Proof.
  apply (Products_reads_loading_and_data_only
           (Obj []) (Obj [("page", Num 2)]) failed_env
           (under {| uri := "http://localhost:8000/graphql/";
                     cache := InMemoryCache_new |}
                  {| loading := false; data := Undefined; error := None |})
           (report (Failed "Network request failed"))
           {| loading := false; data := Undefined; error := None |});
    reflexivity.
Defined.

(** X7.  [App] brings its own client: its whole outcome, requests and
    output, is determined by the current result of its one request.
    Props, a client provided further out, and the results of other
    requests have no influence, and [App] renders without any outer
    provider. *)
Theorem App_depends_on_its_request_only
    (props1 props2 : Js.Value) (env1 env2 : Env) :
  answer env1 (asked AppTsx.client) = answer env2 (asked AppTsx.client) ->
  AppTsx.App props1 env1 = AppTsx.App props2 env2.
Proof.
  intros Ha. apply outcome_eq.
  - now rewrite !App_dispatch.
  - rewrite !App_result.
    rewrite (Products_result_of (Obj []) (Obj []) (inside_provider env1)
               (inside_provider env2) _ _ eq_refl eq_refl);
      [reflexivity | |]; cbn [inside_provider answer]; now rewrite Ha.
Qed.

Lemma App_depends_on_its_request_only_witness :
  AppTsx.App (Obj []) {| context := None; answer := fun _ => sample_result |}
  = AppTsx.App (Obj [("theme", Str "dark")])
      {| context := Some {| uri := "http://localhost:8000/graphql/";
                            cache := InMemoryCache_new |};
         answer := fun rq =>
                     if String.eqb (endpoint rq) (uri AppTsx.client)
                     then sample_result else report Pending |}.
Proof.
  apply (App_depends_on_its_request_only
           (Obj []) (Obj [("theme", Str "dark")])
           {| context := None; answer := fun _ => sample_result |}
           {| context := Some {| uri := "http://localhost:8000/graphql/";
                                 cache := InMemoryCache_new |};
              answer := fun rq =>
                          if String.eqb (endpoint rq) (uri AppTsx.client)
                          then sample_result else report Pending |}).
  reflexivity.
Defined.

(** X8.  [App] sets up no error boundary: an exception of [Products]
    is the outcome of [App] itself, so nothing of the tree is rendered,
    the header included, although the request has been handed to the
    client. *)
Theorem App_has_no_error_boundary
    (props : Js.Value) (env : Env) (e : Js.Error) :
  result (ProductsTsx.Products (Obj []) (inside_provider env)) = Throw e ->
  result (AppTsx.App props env) = Throw e
  /\ dispatched (AppTsx.App props env) = [asked AppTsx.client].
Proof.
  intros Hp. split; [|apply App_dispatch].
  now rewrite App_result, Hp.
Qed.

Lemma App_has_no_error_boundary_witness :
  result (AppTsx.App (Obj []) failed_env) = Throw TypeError
  /\ dispatched (AppTsx.App (Obj []) failed_env) = [asked AppTsx.client].
Proof.
  apply (App_has_no_error_boundary (Obj []) failed_env TypeError).
  reflexivity.
Defined.

(** ** How the rows fill *)

Lemma chunk_row_length {A} (n : nat) (l : list A) (j : nat) :
  j < row_count n (List.length l) ->
  List.length (nth j (chunk n l) []) = Nat.min n (List.length l - j * n).
Proof.
  intros Hj. unfold chunk. rewrite nth_map_seq by assumption.
  now rewrite length_firstn, length_skipn.
Qed.

(** X9.  The rows of the loaded grid fill from the top: with N records
    each of the first N / 2 rows holds two cells; an odd N leaves one
    more row with a single cell, an even N leaves none. *)
Theorem rows_fill_in_pairs
    (props : Js.Value) (env : Env) (r : QueryResult)
    (ps : list Schema.Product) :
  seen env = Some r ->
  loading r = false ->
  Schema.products_of (data r) = Some ps ->
  exists tree rows,
    result (ProductsTsx.Products props env) = Ok tree
    /\ grids tree = [(2, rows)]
    /\ (forall j, j < List.length ps / 2 -> List.length (nth j rows []) = 2)
    /\ (List.length ps mod 2 = 1 ->
        List.length rows = List.length ps / 2 + 1
        /\ List.length (nth (List.length ps / 2) rows []) = 1)
    /\ (List.length ps mod 2 = 0 -> List.length rows = List.length ps / 2).
Proof.
  intros Hs Hl Hp.
  exists (grid_view (chunk 2 (map product_cell ps))),
         (chunk 2 (map product_cell ps)).
  split; [now apply Products_resolved with (r := r)|].
  split; [apply grids_grid_view|].
  pose proof (Nat.div_mod_eq (List.length ps) 2) as E.
  pose proof (Nat.mod_upper_bound (List.length ps) 2 ltac:(lia)) as U.
  assert (row_count 2 (List.length ps)
          = List.length ps / 2 + List.length ps mod 2) as Hrc.
  { unfold row_count.
    symmetry. apply Nat.div_unique with (r := 1 - List.length ps mod 2); lia. }
  split; [|split].
  - intros j Hj. rewrite chunk_row_length; rewrite length_map; lia.
  - intros Hodd. rewrite length_chunk, chunk_row_length;
      rewrite length_map; lia.
  - intros Heven. rewrite length_chunk, length_map. lia.
Qed.

Lemma rows_fill_in_pairs_witness :
  exists tree rows,
    result (ProductsTsx.Products (Obj []) sample_env) = Ok tree
    /\ grids tree = [(2, rows)]
    /\ (forall j, j < 3 / 2 -> List.length (nth j rows []) = 2)
    /\ (3 mod 2 = 1 ->
        List.length rows = 3 / 2 + 1
        /\ List.length (nth (3 / 2) rows []) = 1)
    /\ (3 mod 2 = 0 -> List.length rows = 3 / 2).
Proof.
  apply (rows_fill_in_pairs (Obj []) sample_env sample_result sample_products);
    reflexivity.
Defined.

(** ** The query asks for what the view reads *)

Lemma restrict_leaf (v : Js.Value) : restrict [] v = v.
Proof. destruct v; reflexivity. Qed.

Lemma restrict_nullish (sels : list Gql.Selection) (v : Js.Value) :
  nullish (restrict sels v) = nullish v.
Proof. destruct sels, v; reflexivity. Qed.

Lemma restrict_Obj (s : Gql.Selection) (sels : list Gql.Selection)
      (fields : list (string * Js.Value)) :
  restrict (s :: sels) (Obj fields) = Obj (keep_fields (s :: sels) fields).
Proof.
  cbn [restrict]. f_equal.
  induction fields as [|[k x] rest IH]; [reflexivity|].
  cbn [keep_fields]. rewrite <- IH. reflexivity.
Qed.

Lemma lookup_keep_fields (sels : list Gql.Selection) (k : string)
      (fields : list (string * Js.Value)) :
  lookup k (keep_fields sels fields)
  = match find_field k sels with
    | Some subs => restrict subs (lookup k fields)
    | None => Undefined
    end.
Proof.
  induction fields as [|[k' x] rest IH]; cbn [keep_fields lookup].
  - destruct (find_field k sels) as [[|]|]; reflexivity.
  - destruct (String.eqb_spec k k') as [<-|Hne].
    + destruct (find_field k sels) as [subs|] eqn:Hf; cbn [lookup].
      * now rewrite String.eqb_refl.
      * exact IH.
    + destruct (find_field k' sels) as [subs'|]; cbn [lookup]; [|exact IH].
      apply String.eqb_neq in Hne. now rewrite Hne.
Qed.

(** Reading a selected field of a restricted value gives the
    restriction of what the field held. *)
Lemma get_restrict (sels subs : list Gql.Selection) (v : Js.Value)
      (k : string) :
  find_field k sels = Some subs ->
  get (restrict sels v) k = (x <- get v k ;; Ok (restrict subs x)).
Proof.
  intros Hf. destruct sels as [|s sels]; [discriminate|].
  destruct v; try reflexivity.
  - cbn [restrict get bind]. destruct subs; reflexivity.
  - cbn [restrict get bind]. destruct subs; reflexivity.
  - cbn [restrict get bind]. destruct (String.eqb k "length"), subs; reflexivity.
  - cbn [restrict get bind]. rewrite length_map.
    destruct (String.eqb k "length"), subs; reflexivity.
  - rewrite restrict_Obj. cbn [get bind].
    now rewrite lookup_keep_fields, Hf.
Qed.

Lemma edges_as_requested (d : Js.Value) :
  get (restrict (Gql.selectionSet ProductsTsx.GET_PRODUCTS) d) "products"
      .> "edges"
  = (e <- get d "products" .> "edges" ;; Ok (restrict edge_selection e)).
Proof.
  erewrite get_restrict by reflexivity.
  destruct (get d "products") as [conn|]; cbn [bind]; [|reflexivity].
  erewrite get_restrict by reflexivity. reflexivity.
Qed.

Lemma render_cell_restrict (edges edges' item : Js.Value) :
  render_cell (list_props edges') (restrict edge_selection item)
  = render_cell (list_props edges) item.
Proof.
  unfold render_cell, list_props.
  cbn [FlatListProps.keyExtractor FlatListProps.renderItem].
  unfold ProductsTsx.keyExtractor, ProductsTsx.renderItem.
  erewrite get_restrict by reflexivity.
  destruct (get item "node") as [nd|]; cbn [bind]; [|reflexivity].
  erewrite (get_restrict _ _ nd "id") by reflexivity.
  erewrite (get_restrict _ _ nd "name") by reflexivity.
  erewrite (get_restrict _ _ nd "thumbnail") by reflexivity.
  destruct (get nd "id") as [i|]; cbn [bind]; [|reflexivity].
  destruct (get nd "thumbnail") as [th|]; cbn [bind]; [|reflexivity].
  erewrite get_restrict by reflexivity.
  destruct (get th "url") as [u|]; cbn [bind]; [|reflexivity].
  destruct (get nd "name") as [nm|]; cbn [bind]; [|reflexivity].
  now rewrite !restrict_leaf.
Qed.

Lemma rows_of_map (g : Js.Value -> Js.Value) (n : nat) (items : list Js.Value) :
  (forall v, nullish (g v) = nullish v) ->
  rows_of n (map g items) = map (map g) (rows_of n items).
Proof.
  intros Hg. unfold rows_of, chunk. rewrite length_map, !map_map.
  apply map_ext. intros i.
  rewrite skipn_map, firstn_map, filter_map_swap. f_equal.
  apply filter_ext. intros v. now rewrite Hg.
Qed.

Lemma mapM_map {A B C} (f : B -> Js.Result C) (g : A -> B) (l : list A) :
  mapM f (map g l) = mapM (fun x => f (g x)) l.
Proof.
  induction l as [|x l IH]; simpl; [reflexivity|]. now rewrite IH.
Qed.

Lemma mapM_ext {A B} (f f' : A -> Js.Result B) (l : list A) :
  (forall x, f x = f' x) -> mapM f l = mapM f' l.
Proof.
  intros H. induction l as [|x l IH]; simpl; [reflexivity|].
  now rewrite H, IH.
Qed.

Lemma items_of_restrict (edges : Js.Value) :
  array_like_object edges = false ->
  items_of (restrict edge_selection edges)
  = map (restrict edge_selection) (items_of edges).
Proof.
  intros Hno. destruct edges; try reflexivity.
  - cbn [items_of]. change (restrict edge_selection (Str s)) with (Str s).
    cbn [items_of]. rewrite map_map. reflexivity.
  - change (restrict edge_selection (Obj fields))
      with (restrict (Gql.Field "node" [] (below "node" edge_selection) :: [])
                     (Obj fields)).
    rewrite restrict_Obj. cbn [items_of].
    rewrite lookup_keep_fields. cbn [find_field String.eqb Ascii.eqb Bool.eqb].
    cbn [array_like_object] in Hno. apply negb_false_iff in Hno.
    destruct (lookup "length" fields); try discriminate; reflexivity.
Qed.

Lemma FlatList_restrict (edges : Js.Value) :
  array_like_object edges = false ->
  FlatList (list_props (restrict edge_selection edges))
  = FlatList (list_props edges).
Proof.
  intros Hno. unfold FlatList.
  cbn [FlatListProps.data FlatListProps.numColumns
       FlatListProps.ListHeaderComponent list_props bind].
  rewrite (items_of_restrict edges Hno).
  rewrite rows_of_map by (intros; apply restrict_nullish).
  f_equal. rewrite mapM_map.
  erewrite mapM_ext; [reflexivity|].
  intros row. cbv beta. rewrite mapM_map.
  apply mapM_ext. intros item. apply render_cell_restrict.
Qed.

(** X10.  The view reads nothing that [GET_PRODUCTS] does not ask for:
    for any payload whose [products.edges] is not an object carrying a
    [length] (a list field holds an array or [null]), cutting the
    payload down to the fields the query selects, and so dropping
    whatever else a response may carry, leaves the output of
    [Products] unchanged, be it a tree or an exception. *)
Theorem view_reads_only_requested_fields
    (props1 props2 : Js.Value) (env1 env2 : Env) (r : QueryResult) :
  seen env1 = Some r ->
  seen env2 = Some (as_requested r) ->
  edges_array_like r = false ->
  result (ProductsTsx.Products props1 env1)
  = result (ProductsTsx.Products props2 env2).
Proof.
  intros H1 H2 Hno. destruct (loading r) eqn:Hl.
  - rewrite (Products_loading props1 env1 r H1 Hl).
    symmetry. now apply (Products_loading props2 env2 (as_requested r) H2).
  - rewrite (Products_loaded props1 env1 r H1 Hl).
    rewrite (Products_loaded props2 env2 (as_requested r) H2 Hl).
    cbn [as_requested data]. rewrite edges_as_requested.
    unfold edges_array_like in Hno.
    destruct (get (data r) "products" .> "edges") as [edges|]; cbn [bind];
      [|reflexivity].
    now rewrite FlatList_restrict.
Qed.

Lemma view_reads_only_requested_fields_witness :
  result (ProductsTsx.Products (Obj []) verbose_env)
  = result (ProductsTsx.Products (Obj [])
              (under AppTsx.client (as_requested verbose_result))).
Proof.
  apply (view_reads_only_requested_fields (Obj []) (Obj []) verbose_env
           (under AppTsx.client (as_requested verbose_result)) verbose_result);
    reflexivity.
Defined.

(** ** How [App] wraps [Products] *)

Lemma grids_of_app (c : ApolloClient) (st : Style) (body : Element) :
  grids (ApolloProvider c [View st [StatusBar "auto"; header_view; body]])
  = grids body.
Proof.
  change ((grids body ++ []) ++ [] = grids body).
  now rewrite !app_nil_r.
Qed.

(** X11.  Whenever [Products] renders, to whatever tree, [App] renders
    too and adds the header and nothing else: the header region is the
    fixed header, the list region is the output of [Products]
    unchanged, the texts of the screen are the header text followed by
    those of the list, and the grids and cells of the screen are those
    of the list. *)
Theorem App_adds_only_the_header
    (props : Js.Value) (env : Env) (body : Element) :
  result (ProductsTsx.Products (Obj []) (inside_provider env)) = Ok body ->
  exists tree,
    result (AppTsx.App props env) = Ok tree
    /\ AppTsx.header_region tree = Some header_view
    /\ AppTsx.body_region tree = Some body
    /\ texts tree = Str "React Native Demo Home Page" :: texts body
    /\ grids tree = grids body
    /\ cells tree = cells body.
Proof.
  intros Hb. eexists. rewrite App_result, Hb. cbn [bind].
  split; [reflexivity|]. split; [reflexivity|]. split; [reflexivity|].
  split; [apply texts_of_app|].
  split; [apply grids_of_app|].
  unfold cells. now rewrite grids_of_app.
Qed.

Lemma App_adds_only_the_header_witness :
  exists tree,
    result (AppTsx.App (Obj []) verbose_env) = Ok tree
    /\ AppTsx.header_region tree = Some header_view
    /\ AppTsx.body_region tree = Some verbose_body
    /\ texts tree = Str "React Native Demo Home Page" :: texts verbose_body
    /\ grids tree = grids verbose_body
    /\ cells tree = cells verbose_body.
Proof.
  apply (App_adds_only_the_header (Obj []) verbose_env verbose_body).
  reflexivity.
Defined.
